(** * go-xserver: client send facade and gateway relay dispatcher

    A shallow embedding of [services/internal/utility/send_msg.go] and of
    the gateway component that follows it in the same source file
    ([Gateway], [VerifyToken], [OnLogout], [OnRecvFromClient]).

    Conventions.
    - Go's [uint32] and [uint64] values are integers of [Z]; a conversion
      to a fixed width is written out as a reduction modulo [2^w].
    - Go maps are stdpp finite maps: [map[string]map[uint32]NodeID] is
      [gmap string (gmap Z NodeID)].
    - Calls that leave the process (logging, sending to a node, sending to
      a client) are recorded, in program order, in a list of events that
      each function returns next to its Go return values.
    - A Go run-time panic is the result [None].
    - The read/write mutex around [allocServers] is not represented: every
      function below is one critical section, executed atomically. *)

From stdpp Require Import gmap strings list fin_maps.
From Stdlib Require Import ZArith.
From Stdlib.Strings Require Import Byte.

Local Open Scope Z_scope.

(** ** Fixed-width integers *)

Definition uint32 (z : Z) : Z := z mod 2 ^ 32.
Definition uint64 (z : Z) : Z := z mod 2 ^ 64.

Definition is_uint32 (z : Z) : Prop := 0 ≤ z < 2 ^ 32.

(** ** Package [utility]: sending to clients *)

Module Utility.

(** The two errors built with [fmt.Errorf], and the one handed back
    unchanged from [gotcp.Encode]. *)
Inductive error : Type :=
| EncodeFailed (reason : string)
| SendingFailed (account : string) (cmd : Z)
| BroadcastFailed (cmd : Z).

(** Calls made on [ctx.Node]. *)
Inductive call : Type :=
| CallSendMsgToClient (account : string) (cmd : Z) (data : list byte)
| CallBroadcastMsgToClient (cmd : Z) (data : list byte).

Section SendMsg.
(** [proto.Message] *)
Variable Message : Type.
(** [gotcp.Encode]: the encoded body and the flag byte, or an error. *)
Variable gotcp_Encode : Z → Message → string + (list byte * byte).

(** The part of [common.Context] that this file uses. *)
Record Context : Type := {
  Node_SendMsgToClient : string → Z → list byte → bool;
  Node_BroadcastMsgToClient : Z → list byte → bool
}.

Definition SendMsgToClient (ctx : Context) (account : string) (cmd : Z)
    (msg : Message) : (bool * option error) * list call :=
  match gotcp_Encode cmd msg with
  | inl err => ((false, Some (EncodeFailed err)), [])
  | inr (data, flag) =>
      let data := data ++ [flag] in
      if Node_SendMsgToClient ctx account cmd data
      then ((true, None), [CallSendMsgToClient account cmd data])
      else ((false, Some (SendingFailed account cmd)),
            [CallSendMsgToClient account cmd data])
  end.

Definition SendMsgToClientByRoleName (ctx : Context) (roleName : string)
    (cmd : Z) (msg : Message) : (bool * option error) * list call :=
  let account := String.EmptyString in
  SendMsgToClient ctx account cmd msg.

Definition BroadcastMsgToClient (ctx : Context) (cmd : Z)
    (msg : Message) : (bool * option error) * list call :=
  match gotcp_Encode cmd msg with
  | inl err => ((false, Some (EncodeFailed err)), [])
  | inr (data, flag) =>
      let data := data ++ [flag] in
      if Node_BroadcastMsgToClient ctx cmd data
      then ((true, None), [CallBroadcastMsgToClient cmd data])
      else ((false, Some (BroadcastFailed cmd)),
            [CallBroadcastMsgToClient cmd data])
  end.
End SendMsg.

Arguments Node_SendMsgToClient : clear implicits.
Arguments Node_BroadcastMsgToClient : clear implicits.

End Utility.

(** ** Package [components]: the gateway *)

Module Components.

(** [protocol.MSG_GW_RELAY_CLIENT_MSG] *)
Record MSG_GW_RELAY_CLIENT_MSG : Type := {
  Account : string;
  CMD : Z;
  Data : list byte
}.

(** The error made inside the lookup closure of [OnRecvFromClient]. *)
Inductive lookupError : Type :=
| NoServerInformation (account : string) (cmd : Z).

(** What is written to [gw.ctx.Log]. *)
Inductive logEntry : Type :=
| LogLoadFailed (err : string) (account : string)
| LogTokenVerificationFailed (expected presented account : string)
| LogWrongMessageNumber (cmd : Z) (account : string)
| LogLookupFailed (err : lookupError)
| LogTargetNotFound (cmd : Z) (account : string) (nodeType : Z)
| LogSendFailed (cmd : Z) (account : string) (nodeType : Z).

(** *** The command namespace *)

(** [cmd / uint32(MsgCmdOffset)], the first line of [OnRecvFromClient]. *)
Definition nodeTypeOf (offset cmd : Z) : Z := cmd / offset.

(** [cmd % uint32(MsgCmdOffset)], the [CMD] field of the relay message. *)
Definition localCmdOf (offset cmd : Z) : Z := cmd mod offset.

Definition decode (offset cmd : Z) : Z * Z :=
  (nodeTypeOf offset cmd, localCmdOf offset cmd).

(** Modelled from the spec: the encoder of wire commands, which no
    function of the source implements (clients build the command). The
    spec gives [encode(serviceType, localCmd) = serviceType * OFFSET +
    localCmd]. *)
Definition encode (offset serviceType localCmd : Z) : Z :=
  serviceType * offset + localCmd.

Section Gateway.
(** Types declared outside this file: [common.NodeID], [common.INode]
    and [protocol.SERVER_ID]. *)
Context {NodeID INode ServerID : Type}.

(** The token object of package [db], after [Load]: the credential and
    the servers allocated to the account, keyed by node type. *)
Record TokenObj : Type := {
  Token : string;
  AllocServers : gmap Z ServerID
}.

Inductive event : Type :=
| Log (e : logEntry)
| Send (target : INode) (cmd : Z) (msg : MSG_GW_RELAY_CLIENT_MSG).

(** What the gateway takes from outside: the constants [common.Gateway],
    [common.NodeTypeSize] and [protocol.CMD_GW_RELAY_CLIENT_MSG], the
    configured [MsgCmdOffset], [utility.ServerID2NodeID], the token
    store, the node registry ([GetNode], [GetNodeOne] of the embedded
    [nodegateway.Node]) and the outcome of [INode.SendMsg].
    [common.NodeType] is an unsigned 32-bit integer. *)
Record Env : Type := {
  common_Gateway : Z;
  common_NodeTypeSize : Z;
  CMD_GW_RELAY_CLIENT_MSG : Z;
  MsgCmdOffset : Z;
  ServerID2NodeID : ServerID → NodeID;
  Token_Load : string → string + TokenObj;
  GetNode : NodeID → option INode;
  GetNodeOne : Z → option INode;
  SendMsg : INode → Z → MSG_GW_RELAY_CLIENT_MSG → bool
}.

(** The mutable part of [Gateway]. *)
Record Gateway : Type := {
  allocServers : gmap string (gmap Z NodeID)
}.

Definition NewGateway : Gateway := {| allocServers := ∅ |}.

(** [gw.allocServers[account][k] = id]: the inner map is the one stored
    under [account]. [VerifyToken] creates it on the line before its
    loop, so the write to a missing (nil) inner map, which panics in
    Go, does not arise; it is the identity here. *)
Definition setAlloc (account : string) (k : Z) (id : NodeID)
    (gw : Gateway) : Gateway :=
  match allocServers gw !! account with
  | Some inner =>
      {| allocServers := <[account := <[k := id]> inner]> (allocServers gw) |}
  | None => gw
  end.

(** Result codes: 0 success, 1 wrong token, 2 system error. *)
Definition VerifyToken (env : Env) (gw : Gateway) (account token : string)
    : Z * Gateway * list event :=
  match Token_Load env account with
  | inl err => (2, gw, [Log (LogLoadFailed err account)])
  | inr tmpTokenObj =>
      if negb (String.eqb token (Token tmpTokenObj)) then
        (1, gw,
         [Log (LogTokenVerificationFailed (Token tmpTokenObj) token account)])
      else
        let gw := {| allocServers := <[account := ∅]> (allocServers gw) |} in
        let gw :=
          map_fold (λ k v gw, setAlloc account k (ServerID2NodeID env v) gw)
                   gw (AllocServers tmpTokenObj) in
        (0, gw, [])
  end.

Definition OnLogout (gw : Gateway) (account : string) : Gateway :=
  {| allocServers := delete account (allocServers gw) |}.

(** The closure of [OnRecvFromClient] that reads the table under the
    read lock; it returns Go's pair of a [NodeID] pointer and an error. *)
Definition lookupAlloc (gw : Gateway) (account : string) (cmd nodeType : Z)
    : option NodeID * option lookupError :=
  match allocServers gw !! account with
  | Some v =>
      match v !! nodeType with
      | Some id => (Some id, None)
      | None => (None, None)
      end
  | None => (None, Some (NoServerInformation account cmd))
  end.

(** [var target common.INode]; [GetNode] for a sticky node, [GetNodeOne]
    otherwise. *)
Definition selectTarget (env : Env) (nodeID : option NodeID) (nodeType : Z)
    : option INode :=
  match nodeID with
  | Some id => GetNode env id
  | None => GetNodeOne env nodeType
  end.

(** [nodeType >= common.NodeTypeSize || nodeType <= common.Gateway] *)
Definition wrongNodeType (env : Env) (nodeType : Z) : bool :=
  (common_NodeTypeSize env <=? nodeType) || (nodeType <=? common_Gateway env).

(** [Some (done, events)], or [None] for the integer division by zero
    of the first line when [uint32(MsgCmdOffset)] is 0. *)
Definition OnRecvFromClient (env : Env) (gw : Gateway) (account : string)
    (cmd : Z) (data : list byte) : option (bool * list event) :=
  let offset := uint32 (MsgCmdOffset env) in
  if offset =? 0 then None else
  let nodeType := nodeTypeOf offset cmd in
  if wrongNodeType env nodeType then
    Some (false, [Log (LogWrongMessageNumber cmd account)])
  else
    match lookupAlloc gw account cmd nodeType with
    | (_, Some err) => Some (false, [Log (LogLookupFailed err)])
    | (nodeID, None) =>
        match selectTarget env nodeID nodeType with
        | None =>
            Some (false, [Log (LogTargetNotFound cmd account nodeType)])
        | Some target =>
            let msg := {| Account := account;
                          CMD := localCmdOf offset cmd;
                          Data := [] ++ data |} in
            let relay := uint64 (CMD_GW_RELAY_CLIENT_MSG env) in
            if negb (SendMsg env target relay msg) then
              Some (true, [Send target relay msg;
                           Log (LogSendFailed cmd account nodeType)])
            else
              Some (true, [Send target relay msg])
        end
    end.

(** The messages handed to [SendMsg], in order. *)
Fixpoint sends (evs : list event)
    : list (INode * Z * MSG_GW_RELAY_CLIENT_MSG) :=
  match evs with
  | [] => []
  | Send target cmd msg :: evs => (target, cmd, msg) :: sends evs
  | Log _ :: evs => sends evs
  end.

(** The entries written to the log, in order. *)
Fixpoint logged (evs : list event) : list logEntry :=
  match evs with
  | [] => []
  | Log e :: evs => e :: logged evs
  | Send _ _ _ :: evs => logged evs
  end.

End Gateway.

Arguments TokenObj : clear implicits.
Arguments event : clear implicits.
Arguments Env : clear implicits.
Arguments Gateway : clear implicits.
Arguments NewGateway : clear implicits.

(** *** A small deployment

    The offset 1000 of the spec's scenario; node types 2 to 5 are
    backends, the gateway's own type is 1. Node identifiers are pairs
    of a node type and an instance number, nodes are named by strings. *)
Module Sample.

Definition nodeID : Type := Z * Z.

Definition aliceToken : TokenObj Z :=
  {| Token := "secret"; AllocServers := {[ 3 := 301 ]} |}.

(** An allocation list that also names the gateway the client was
    sent to. *)
Definition bobToken : TokenObj Z :=
  {| Token := "hunter2"; AllocServers := {[ 1 := 101; 3 := 302 ]} |}.

Definition load (account : string) : string + TokenObj Z :=
  if String.eqb account "alice" then inr aliceToken
  else if String.eqb account "bob" then inr bobToken
  else inl "redis: nil"%string.

Definition getNode (id : nodeID) : option string :=
  match id with
  | (1, 1) => Some "gateway-1"%string
  | (3, 1) => Some "lobby-1"%string
  | (4, 1) => Some "match-1"%string
  | _ => None
  end.

Definition getNodeOne (nodeType : Z) : option string :=
  match nodeType with
  | 1 => Some "gateway-1"%string
  | 3 => Some "lobby-1"%string
  | 4 => Some "match-1"%string
  | _ => None
  end.

Definition env : Env nodeID string Z :=
  {| common_Gateway := 1;
     common_NodeTypeSize := 6;
     CMD_GW_RELAY_CLIENT_MSG := 9;
     MsgCmdOffset := 1000;
     ServerID2NodeID := λ sid, (sid / 100, sid mod 100);
     Token_Load := load;
     GetNode := getNode;
     GetNodeOne := getNodeOne;
     SendMsg := λ target _ _, negb (String.eqb target "match-1") |}.

(** A table as a successful login of "alice" leaves it, and one with
    an entry that has no assignment at all. *)
Definition loggedIn : Gateway nodeID :=
  {| allocServers := {[ "alice"%string := {[ 3 := (3, 1) ]} ]} |}.

Definition stale : Gateway nodeID :=
  {| allocServers := {[ "alice"%string := {[ 3 := (3, 2) ; 4 := (4, 1) ]} ]} |}.

Definition payload : list byte := [x01; x02; xff].

Definition ctx : Utility.Context :=
  {| Utility.Node_SendMsgToClient :=
       λ account _ _, negb (String.eqb account "");
     Utility.Node_BroadcastMsgToClient := λ _ _, true |}.

Definition encodeMsg (cmd : Z) (msg : list byte)
    : string + (list byte * byte) :=
  if cmd =? 0 then inl "gotcp: bad command"%string else inr (msg, x00).

End Sample.

End Components.

(** ** Package [components]: start, stop and the registered functions *)

Module Lifecycle.
Import Components.

(** [gw.ctx.Config.DbToken] *)
Record DbToken : Type := {
  Name : string;
  Addrs : list string;
  Password : string;
  DBIndex : Z
}.

(** What [Start], [Close] and [initRedis] do outside the gateway. *)
Inductive bootEvent : Type :=
| CreateDB (name : string) (addrs : list string) (password : string)
    (dbIndex : Z)
| LogError (err : string)
| NodeInit
| NodeStart
| NodeClose.

(** What they take from outside: the value of [getPluginType(gw.ctx)],
    the constant [common.Gateway], the configuration of the token
    database, [go_redis_orm.CreateDB] (its error, if any) and the results
    of [Node.Init] and [Node.Start]. *)
Record Boot : Type := {
  pluginType : Z;
  boot_Gateway : Z;
  Config_DbToken : DbToken;
  go_redis_orm_CreateDB : string → list string → string → Z → option string;
  Node_Init : bool;
  Node_Start : bool
}.

Definition initRedis (boot : Boot) : bool * list bootEvent :=
  let cfg := Config_DbToken boot in
  let call := CreateDB (Name cfg) (Addrs cfg) (Password cfg) (DBIndex cfg) in
  match go_redis_orm_CreateDB boot (Name cfg) (Addrs cfg) (Password cfg)
          (DBIndex cfg) with
  | Some err => (false, [call; LogError err])
  | None => (true, [call])
  end.

Definition Start (boot : Boot) : bool * list bootEvent :=
  if pluginType boot =? boot_Gateway boot then
    let '(ok, evs) := initRedis boot in
    if negb ok then (false, evs)
    else if negb (Node_Init boot) then (false, evs ++ [NodeInit])
    else if negb (Node_Start boot) then (false, evs ++ [NodeInit; NodeStart])
    else (true, evs ++ [NodeInit; NodeStart])
  else (true, []).

(** [Close] on the [Node] field: [true] while the pointer is not nil. The
    result is the field after the call. *)
Definition Close (hasNode : bool) : bool * list bootEvent :=
  if hasNode then (false, [NodeClose]) else (hasNode, []).

(** The three function fields of [Gateway]; [None] is Go's nil. *)
Record Hooks (FS FE FD : Type) : Type := {
  funcSendToClient : option FS;
  funcEncodeFunc : option FE;
  funcDecodeFunc : option FD
}.

Arguments funcSendToClient {FS FE FD}.
Arguments funcEncodeFunc {FS FE FD}.
Arguments funcDecodeFunc {FS FE FD}.

(** The fields as [NewGateway] leaves them. *)
Definition noHooks {FS FE FD : Type} : Hooks FS FE FD :=
  {| funcSendToClient := None; funcEncodeFunc := None; funcDecodeFunc := None |}.

Definition RegisterSendToClient {FS FE FD : Type} (f : option FS)
    (gw : Hooks FS FE FD) : Hooks FS FE FD :=
  {| funcSendToClient := f;
     funcEncodeFunc := funcEncodeFunc gw;
     funcDecodeFunc := funcDecodeFunc gw |}.

Definition GetSendToClient {FS FE FD : Type} (gw : Hooks FS FE FD) : option FS :=
  funcSendToClient gw.

Definition RegisterEncodeFunc {FS FE FD : Type} (f : option FE)
    (gw : Hooks FS FE FD) : Hooks FS FE FD :=
  {| funcSendToClient := funcSendToClient gw;
     funcEncodeFunc := f;
     funcDecodeFunc := funcDecodeFunc gw |}.

Definition RegisterDecodeFunc {FS FE FD : Type} (f : option FD)
    (gw : Hooks FS FE FD) : Hooks FS FE FD :=
  {| funcSendToClient := funcSendToClient gw;
     funcEncodeFunc := funcEncodeFunc gw;
     funcDecodeFunc := f |}.

(** *** Sample start-ups *)
Module Sample.

Definition dbToken : DbToken :=
  {| Name := "token"; Addrs := ["127.0.0.1:6379"%string]; Password := "";
     DBIndex := 0 |}.

Definition createDB (name : string) (addrs : list string) (password : string)
    (dbIndex : Z) : option string :=
  if dbIndex <? 16 then None else Some "redis: invalid DB index"%string.

Definition gateway : Boot :=
  {| pluginType := 1; boot_Gateway := 1; Config_DbToken := dbToken;
     go_redis_orm_CreateDB := createDB; Node_Init := true;
     Node_Start := true |}.

Definition lobby : Boot :=
  {| pluginType := 3; boot_Gateway := 1; Config_DbToken := dbToken;
     go_redis_orm_CreateDB := createDB; Node_Init := false;
     Node_Start := false |}.

Definition initFails : Boot :=
  {| pluginType := 1; boot_Gateway := 1; Config_DbToken := dbToken;
     go_redis_orm_CreateDB := createDB; Node_Init := false;
     Node_Start := true |}.

End Sample.

End Lifecycle.

(** * Properties *)

(** ** Fixed-width integers *)

Lemma uint32_range z : is_uint32 (uint32 z).
Proof. unfold is_uint32, uint32. apply Z.mod_pos_bound. lia. Qed.

Lemma uint32_id z : is_uint32 z → uint32 z = z.
Proof. unfold is_uint32, uint32. intros Hz. by apply Z.mod_small. Qed.

(** ** The command namespace *)

Module CodecFacts.
Import Components.

(** An encoded command that fits in 32 bits is a [uint32] value: the
    conversion to the type of the wire command leaves it as it is. *)
Lemma encode_uint32 offset serviceType localCmd :
  0 ≤ serviceType → 0 ≤ localCmd < offset →
  serviceType * offset + localCmd < 2 ^ 32 →
  is_uint32 (encode offset serviceType localCmd)
  ∧ uint32 (encode offset serviceType localCmd)
    = encode offset serviceType localCmd.
Proof.
  intros Hs Hl Hfit. unfold encode.
  assert (is_uint32 (serviceType * offset + localCmd)) as Hrange
    by (unfold is_uint32; split; [nia | done]).
  split; [done | by apply uint32_id].
Qed.

(** Every [uint32] command decodes to a node type between 0 and
    [(2^32 - 1) / offset]. *)
Lemma nodeTypeOf_bound offset cmd :
  0 < offset → is_uint32 cmd →
  0 ≤ nodeTypeOf offset cmd ≤ (2 ^ 32 - 1) / offset.
Proof.
  intros Hoff [Hlo Hhi]. unfold nodeTypeOf. split.
  - by apply Z.div_pos.
  - apply Z.div_le_mono; lia.
Qed.

(** C4. For all service types and local commands with
    [localCmd < OFFSET], decoding the encoded command
    [serviceType * OFFSET + localCmd] gives back exactly
    [(serviceType, localCmd)]: the quotient by the offset is the service
    type and the remainder is the local command. *)
Theorem decode_encode offset serviceType localCmd :
  0 ≤ localCmd < offset →
  decode offset (encode offset serviceType localCmd)
  = (serviceType, localCmd).
Proof.
  intros Hl. unfold decode, nodeTypeOf, localCmdOf, encode.
  assert (offset ≠ 0) as Hoff by lia.
  rewrite Z.add_comm. rewrite Z.div_add by done. rewrite Z.mod_add by done.
  rewrite Z.div_small by done. rewrite Z.mod_small by done.
  f_equal.
Qed.

Lemma decode_encode_witness :
  decode 1000 (encode 1000 2 1) = (2, 1).
Proof. apply decode_encode; lia. Defined.

End CodecFacts.

(** ** The client send facade *)

Module UtilityFacts.
Import Utility.

(** C10. [SendMsgToClientByRoleName] returns what [SendMsgToClient]
    returns for the empty account, and makes the same calls, for every
    role name, command and message. *)
Theorem SendMsgToClientByRoleName_empty_account
    (Message : Type) (gotcp_Encode : Z → Message → string + (list byte * byte))
    (ctx : Context) (roleName : string) (cmd : Z) (msg : Message) :
  SendMsgToClientByRoleName Message gotcp_Encode ctx roleName cmd msg
  = SendMsgToClient Message gotcp_Encode ctx "" cmd msg.
Proof. reflexivity. Qed.

(** The role name does not reach the transport: two role names give the
    same result. *)
Lemma SendMsgToClientByRoleName_ignores_role
    (Message : Type) (gotcp_Encode : Z → Message → string + (list byte * byte))
    (ctx : Context) (roleName roleName' : string) (cmd : Z) (msg : Message) :
  SendMsgToClientByRoleName Message gotcp_Encode ctx roleName cmd msg
  = SendMsgToClientByRoleName Message gotcp_Encode ctx roleName' cmd msg.
Proof. reflexivity. Qed.

(** Whenever the encoder succeeds, the one call made is addressed to
    the empty account. *)
Lemma SendMsgToClientByRoleName_calls
    (Message : Type) (gotcp_Encode : Z → Message → string + (list byte * byte))
    (ctx : Context) (roleName : string) (cmd : Z) (msg : Message) data flag :
  gotcp_Encode cmd msg = inr (data, flag) →
  (SendMsgToClientByRoleName Message gotcp_Encode ctx roleName cmd msg).2
  = [CallSendMsgToClient "" cmd (data ++ [flag])].
Proof.
  intros Henc. unfold SendMsgToClientByRoleName, SendMsgToClient.
  rewrite Henc. by destruct (Node_SendMsgToClient _ _ _ _).
Qed.

Example SendMsgToClientByRoleName_sample :
  SendMsgToClientByRoleName (list byte) Components.Sample.encodeMsg
    Components.Sample.ctx "Gandalf" 7 [x0a]
  = ((false, Some (SendingFailed "" 7)), [CallSendMsgToClient "" 7 [x0a; x00]]).
Proof. reflexivity. Qed.

End UtilityFacts.


(** ** The session affinity table and the token check *)

Module AffinityFacts.
Import Components.

Section Facts.
Context {NodeID INode ServerID : Type}.
Implicit Types (env : Env NodeID INode ServerID) (gw : Gateway NodeID).
Implicit Types (account token : string) (tok : TokenObj ServerID).

(** The loop of [VerifyToken], started on the fresh inner map, leaves the
    converted allocation list under [account], whatever order the
    allocations are visited in. *)
Lemma assign_fold account (f : ServerID → NodeID) (allocs : gmap Z ServerID)
    (table : gmap string (gmap Z NodeID)) :
  map_fold (λ k v gw, setAlloc account k (f v) gw)
           {| allocServers := <[account := ∅]> table |} allocs
  = {| allocServers := <[account := f <$> allocs]> table |}.
Proof.
  apply (map_fold_weak_ind
           (λ r m, r = {| allocServers := <[account := f <$> m]> table |})).
  - by rewrite fmap_empty.
  - intros k sid m r _ ->. unfold setAlloc. simpl.
    rewrite lookup_insert_eq, insert_insert_eq. by rewrite fmap_insert.
Qed.

Lemma VerifyToken_success env gw account token tok :
  Token_Load env account = inr tok → token = Token tok →
  VerifyToken env gw account token
  = (0,
     {| allocServers :=
          <[account := ServerID2NodeID env <$> AllocServers tok]> (allocServers gw) |},
     []).
Proof.
  intros Hload ->. unfold VerifyToken. rewrite Hload, String.eqb_refl. simpl.
  by rewrite assign_fold.
Qed.

Lemma OnLogout_absent gw account :
  allocServers gw !! account = None → OnLogout gw account = gw.
Proof.
  intros Habs. destruct gw as [table]. unfold OnLogout. simpl in *.
  f_equal. by apply delete_id.
Qed.

Lemma lookupAlloc_OnLogout gw account cmd nodeType :
  lookupAlloc (OnLogout gw account) account cmd nodeType
  = (None, Some (NoServerInformation account cmd)).
Proof. unfold lookupAlloc, OnLogout. simpl. by rewrite lookup_delete_eq. Qed.

(** C5. [VerifyToken] returns 2 when the token store fails to load the
    record and 1 when the presented token differs from the stored one; in
    both cases the gateway, and with it the affinity table, is returned
    as it was, and the failure is logged. *)
Theorem VerifyToken_failure env gw account token :
  (∀ err, Token_Load env account = inl err →
     VerifyToken env gw account token
     = (2, gw, [Log (LogLoadFailed err account)])) ∧
  (∀ tok, Token_Load env account = inr tok → token ≠ Token tok →
     VerifyToken env gw account token
     = (1, gw, [Log (LogTokenVerificationFailed (Token tok) token account)])).
Proof.
  split.
  - intros err Hload. unfold VerifyToken. by rewrite Hload.
  - intros tok Hload Hne. unfold VerifyToken. rewrite Hload.
    destruct (String.eqb_spec token (Token tok)) as [Heq | _]; [done |].
    reflexivity.
Qed.

(** C6. After the write of a successful [VerifyToken] the account's entry
    is exactly the converted allocation list (a prior entry is replaced,
    not merged), so the lookup returns [N] for every allocated [T] and
    nothing for every other type; after [OnLogout] the lookup is absent
    for every type; and [OnLogout] is idempotent, the identity on a table
    without the account. *)
Theorem assign_lookup_remove env gw account token :
  (∀ tok, Token_Load env account = inr tok → token = Token tok →
     let gw' := (VerifyToken env gw account token).1.2 in
     allocServers gw' !! account
     = Some (ServerID2NodeID env <$> AllocServers tok) ∧
     (∀ T sid cmd, AllocServers tok !! T = Some sid →
        lookupAlloc gw' account cmd T = (Some (ServerID2NodeID env sid), None)) ∧
     (∀ T cmd, AllocServers tok !! T = None →
        lookupAlloc gw' account cmd T = (None, None))) ∧
  (∀ T cmd, (lookupAlloc (OnLogout gw account) account cmd T).1 = None) ∧
  OnLogout (OnLogout gw account) account = OnLogout gw account ∧
  (allocServers gw !! account = None → OnLogout gw account = gw).
Proof.
  split; [| split; [| split]].
  - intros tok Hload Htoken.
    rewrite (VerifyToken_success _ _ _ _ _ Hload Htoken). simpl.
    split; [| split].
    + by rewrite lookup_insert_eq.
    + intros T sid cmd HT. unfold lookupAlloc. simpl.
      rewrite lookup_insert_eq, lookup_fmap, HT. reflexivity.
    + intros T cmd HT. unfold lookupAlloc. simpl.
      rewrite lookup_insert_eq, lookup_fmap, HT. reflexivity.
  - intros T cmd. by rewrite lookupAlloc_OnLogout.
  - apply OnLogout_absent. unfold OnLogout. simpl. apply lookup_delete_eq.
  - apply OnLogout_absent.
Qed.

End Facts.

Lemma VerifyToken_failure_witness :
  VerifyToken Sample.env Sample.loggedIn "carol" "secret"
  = (2, Sample.loggedIn, [Log (LogLoadFailed "redis: nil" "carol")]) ∧
  VerifyToken Sample.env Sample.loggedIn "alice" "Secret"
  = (1, Sample.loggedIn,
     [Log (LogTokenVerificationFailed "secret" "Secret" "alice")]).
Proof.
  split.
  - apply (proj1 (VerifyToken_failure Sample.env Sample.loggedIn "carol" "secret")).
    reflexivity.
  - apply (proj2 (VerifyToken_failure Sample.env Sample.loggedIn "alice" "Secret")
             Sample.aliceToken).
    + reflexivity.
    + simpl. discriminate.
Defined.

Lemma assign_lookup_remove_witness :
  lookupAlloc (VerifyToken Sample.env Sample.stale "alice" "secret").1.2
              "alice" 3001 3
  = (Some (3, 1), None) ∧
  lookupAlloc (VerifyToken Sample.env Sample.stale "alice" "secret").1.2
              "alice" 4001 4
  = (None, None) ∧
  OnLogout (NewGateway Sample.nodeID) "alice" = NewGateway Sample.nodeID.
Proof.
  pose proof (assign_lookup_remove Sample.env Sample.stale "alice" "secret")
    as (Hassign & _).
  pose proof (Hassign Sample.aliceToken eq_refl eq_refl) as (_ & Hhit & Hmiss).
  pose proof (assign_lookup_remove Sample.env (NewGateway Sample.nodeID)
                "alice" "secret") as (_ & _ & _ & Hnoop).
  split; [| split].
  - apply (Hhit 3 301 3001). reflexivity.
  - apply (Hmiss 4 4001). reflexivity.
  - apply Hnoop. reflexivity.
Defined.

End AffinityFacts.


(** ** The relay dispatcher *)

Module RelayFacts.
Import Components.

Section Facts.
Context {NodeID INode ServerID : Type}.
Implicit Types (env : Env NodeID INode ServerID) (gw : Gateway NodeID).
Implicit Types (account : string) (cmd : Z) (data : list byte).
Implicit Types (v : gmap Z NodeID) (target : INode).

Local Abbreviation offset env := (uint32 (MsgCmdOffset env)).
Local Abbreviation typeOf env cmd := (nodeTypeOf (uint32 (MsgCmdOffset env)) cmd).
Local Abbreviation relay env := (uint64 (CMD_GW_RELAY_CLIENT_MSG env)).
Local Abbreviation envelope env account cmd data :=
  {| Account := account;
     CMD := localCmdOf (uint32 (MsgCmdOffset env)) cmd;
     Data := data |}.

Lemma wrongNodeType_false env nodeType :
  wrongNodeType env nodeType = false
  ↔ common_Gateway env < nodeType < common_NodeTypeSize env.
Proof. unfold wrongNodeType. rewrite orb_false_iff. lia. Qed.

Lemma wrongNodeType_true env nodeType :
  wrongNodeType env nodeType = true
  ↔ nodeType ≤ common_Gateway env ∨ common_NodeTypeSize env ≤ nodeType.
Proof. unfold wrongNodeType. rewrite orb_true_iff. lia. Qed.

Lemma lookupAlloc_entry gw account cmd nodeType v :
  allocServers gw !! account = Some v →
  lookupAlloc gw account cmd nodeType = (v !! nodeType, None).
Proof.
  intros Hv. unfold lookupAlloc. rewrite Hv. by destruct (v !! nodeType).
Qed.

Lemma lookupAlloc_unknown gw account cmd nodeType :
  allocServers gw !! account = None →
  lookupAlloc gw account cmd nodeType
  = (None, Some (NoServerInformation account cmd)).
Proof. intros Hv. unfold lookupAlloc. by rewrite Hv. Qed.

(** The four ways out of [OnRecvFromClient]. *)

Lemma relay_wrong_type env gw account cmd data :
  offset env ≠ 0 →
  typeOf env cmd ≤ common_Gateway env
  ∨ common_NodeTypeSize env ≤ typeOf env cmd →
  OnRecvFromClient env gw account cmd data
  = Some (false, [Log (LogWrongMessageNumber cmd account)]).
Proof.
  intros Hoff Hwrong%wrongNodeType_true. unfold OnRecvFromClient.
  destruct (Z.eqb_spec (offset env) 0) as [| _]; [done |].
  by rewrite Hwrong.
Qed.

Lemma relay_unknown_account env gw account cmd data :
  offset env ≠ 0 →
  common_Gateway env < typeOf env cmd < common_NodeTypeSize env →
  allocServers gw !! account = None →
  OnRecvFromClient env gw account cmd data
  = Some (false, [Log (LogLookupFailed (NoServerInformation account cmd))]).
Proof.
  intros Hoff Hok%wrongNodeType_false Habs. unfold OnRecvFromClient.
  destruct (Z.eqb_spec (offset env) 0) as [| _]; [done |].
  by rewrite Hok, lookupAlloc_unknown.
Qed.

Lemma relay_no_target env gw account cmd data v :
  offset env ≠ 0 →
  common_Gateway env < typeOf env cmd < common_NodeTypeSize env →
  allocServers gw !! account = Some v →
  selectTarget env (v !! typeOf env cmd) (typeOf env cmd) = None →
  OnRecvFromClient env gw account cmd data
  = Some (false, [Log (LogTargetNotFound cmd account (typeOf env cmd))]).
Proof.
  intros Hoff Hok%wrongNodeType_false Hv Hnone. unfold OnRecvFromClient.
  destruct (Z.eqb_spec (offset env) 0) as [| _]; [done |].
  by rewrite Hok, (lookupAlloc_entry _ _ _ _ _ Hv), Hnone.
Qed.

Lemma relay_forward env gw account cmd data v target :
  offset env ≠ 0 →
  common_Gateway env < typeOf env cmd < common_NodeTypeSize env →
  allocServers gw !! account = Some v →
  selectTarget env (v !! typeOf env cmd) (typeOf env cmd) = Some target →
  OnRecvFromClient env gw account cmd data
  = Some (true,
          Send target (relay env) (envelope env account cmd data)
          :: (if SendMsg env target (relay env) (envelope env account cmd data)
              then []
              else [Log (LogSendFailed cmd account (typeOf env cmd))])).
Proof.
  intros Hoff Hok%wrongNodeType_false Hv Hsome. unfold OnRecvFromClient.
  destruct (Z.eqb_spec (offset env) 0) as [| _]; [done |].
  rewrite Hok, (lookupAlloc_entry _ _ _ _ _ Hv), Hsome. simpl.
  by destruct (SendMsg env target _ _).
Qed.

Lemma sends_forward target c msg (tail : list logEntry) :
  sends (Send target c msg :: (Log <$> tail) : list (event INode))
  = [(target, c, msg)].
Proof. simpl. f_equal. induction tail as [| e tail IH]; [done | exact IH]. Qed.

Lemma relay_forward_sends env gw account cmd data v target :
  offset env ≠ 0 →
  common_Gateway env < typeOf env cmd < common_NodeTypeSize env →
  allocServers gw !! account = Some v →
  selectTarget env (v !! typeOf env cmd) (typeOf env cmd) = Some target →
  ∃ evs, OnRecvFromClient env gw account cmd data = Some (true, evs)
         ∧ sends evs = [(target, relay env, envelope env account cmd data)].
Proof.
  intros Hoff Hok Hv Hsome.
  rewrite (relay_forward _ _ _ _ _ _ _ Hoff Hok Hv Hsome).
  eexists. split; [reflexivity |].
  by destruct (SendMsg env target _ _).
Qed.

(** Every run falls in one of the four cases. *)
Lemma relay_cases env gw account cmd data :
  offset env ≠ 0 →
  (typeOf env cmd ≤ common_Gateway env
   ∨ common_NodeTypeSize env ≤ typeOf env cmd)
  ∨ (common_Gateway env < typeOf env cmd < common_NodeTypeSize env
     ∧ (allocServers gw !! account = None
        ∨ ∃ v, allocServers gw !! account = Some v
               ∧ (selectTarget env (v !! typeOf env cmd) (typeOf env cmd) = None
                  ∨ ∃ target,
                      selectTarget env (v !! typeOf env cmd) (typeOf env cmd)
                      = Some target))).
Proof.
  intros _.
  destruct (wrongNodeType env (typeOf env cmd)) eqn:Hw.
  - left. by apply wrongNodeType_true.
  - right. split; [by apply wrongNodeType_false |].
    destruct (allocServers gw !! account) as [v |]; [| by left].
    right. exists v. split; [done |].
    destruct (selectTarget env (v !! typeOf env cmd) (typeOf env cmd));
      eauto.
Qed.

(** C1 (as amended). For a message whose decoded node type passes the
    range check, [OnRecvFromClient] returns normally, and returns [true]
    exactly when the account has an entry in the table and a target node is
    found for it; once a target is found it returns [true] whether the send
    succeeds or fails. *)
Theorem OnRecvFromClient_done env gw account cmd data :
  offset env ≠ 0 →
  common_Gateway env < typeOf env cmd < common_NodeTypeSize env →
  ∃ done evs,
    OnRecvFromClient env gw account cmd data = Some (done, evs)
    ∧ (done = true
       ↔ ∃ v target,
           allocServers gw !! account = Some v
           ∧ selectTarget env (v !! typeOf env cmd) (typeOf env cmd)
             = Some target)
    ∧ (∀ v target,
         allocServers gw !! account = Some v →
         selectTarget env (v !! typeOf env cmd) (typeOf env cmd) = Some target →
         SendMsg env target (relay env) (envelope env account cmd data) = false →
         done = true
         ∧ evs = [Send target (relay env) (envelope env account cmd data);
                  Log (LogSendFailed cmd account (typeOf env cmd))]).
Proof.
  intros Hoff Hok.
  destruct (relay_cases env gw account cmd data Hoff)
    as [Hwrong | (_ & [Habs | (v & Hv & [Hnone | (target & Hsome)])])].
  - lia.
  - rewrite (relay_unknown_account _ _ _ _ _ Hoff Hok Habs).
    do 2 eexists. split; [reflexivity |]. split.
    + split; [done |]. intros (v & target & Hv & _). congruence.
    + intros v target Hv. congruence.
  - rewrite (relay_no_target _ _ _ _ _ _ Hoff Hok Hv Hnone).
    do 2 eexists. split; [reflexivity |]. split.
    + split; [done |]. intros (v' & target & Hv' & Hsome). congruence.
    + intros v' target Hv' Hsome. congruence.
  - rewrite (relay_forward _ _ _ _ _ _ _ Hoff Hok Hv Hsome).
    do 2 eexists. split; [reflexivity |]. split.
    + split; [| done]. intros _. by exists v, target.
    + intros v' target' Hv' Hsome' Hsend.
      assert (v' = v) as -> by congruence.
      assert (target' = target) as -> by congruence.
      by rewrite Hsend.
Qed.

(** C2. A message for an account without any entry in the table is
    dropped with one error in the log, whatever the registry holds; a
    message that passed the range check, for an account with an entry
    that has no assignment for the decoded node type, goes to the node
    that [GetNodeOne] returns for that type, and is dropped when it
    returns none. *)
Theorem OnRecvFromClient_affinity_miss env gw account cmd data :
  offset env ≠ 0 →
  (allocServers gw !! account = None →
     ∃ e, OnRecvFromClient env gw account cmd data = Some (false, [Log e])
          ∧ (common_Gateway env < typeOf env cmd < common_NodeTypeSize env →
             e = LogLookupFailed (NoServerInformation account cmd)))
  ∧ (∀ v,
       common_Gateway env < typeOf env cmd < common_NodeTypeSize env →
       allocServers gw !! account = Some v →
       v !! typeOf env cmd = None →
       (∀ target,
          GetNodeOne env (typeOf env cmd) = Some target →
          ∃ evs, OnRecvFromClient env gw account cmd data = Some (true, evs)
                 ∧ sends evs
                   = [(target, relay env, envelope env account cmd data)])
       ∧ (GetNodeOne env (typeOf env cmd) = None →
          OnRecvFromClient env gw account cmd data
          = Some (false,
                  [Log (LogTargetNotFound cmd account (typeOf env cmd))]))).
Proof.
  intros Hoff. split.
  - intros Habs.
    destruct (wrongNodeType env (typeOf env cmd)) eqn:Hw.
    + apply wrongNodeType_true in Hw.
      rewrite (relay_wrong_type _ _ _ _ _ Hoff Hw).
      eexists. split; [reflexivity |]. lia.
    + apply wrongNodeType_false in Hw.
      rewrite (relay_unknown_account _ _ _ _ _ Hoff Hw Habs).
      eexists. split; [reflexivity | done].
  - intros v Hok Hv Hmiss. split.
    + intros target Hone.
      apply (relay_forward_sends _ _ _ _ _ v); try done.
      by rewrite Hmiss.
    + intros Hone.
      apply (relay_no_target _ _ _ _ _ v); try done.
      by rewrite Hmiss.
Qed.

(** C3 (as amended). After a [VerifyToken] that succeeds on a token whose
    allocation list maps node type [T] to [N], a message of that account
    whose command decodes to [T] is sent to the node the registry holds
    for [N], and to no other, provided the registry reports [N] live and
    [T] passes the range check of the dispatcher. *)
Theorem VerifyToken_then_relay env gw account token tok T sid target cmd data :
  offset env ≠ 0 →
  Token_Load env account = inr tok → token = Token tok →
  AllocServers tok !! T = Some sid →
  typeOf env cmd = T →
  common_Gateway env < T < common_NodeTypeSize env →
  GetNode env (ServerID2NodeID env sid) = Some target →
  ∃ gw' evs,
    VerifyToken env gw account token = (0, gw', [])
    ∧ OnRecvFromClient env gw' account cmd data = Some (true, evs)
    ∧ sends evs = [(target, relay env, envelope env account cmd data)].
Proof.
  intros Hoff Hload Htoken HT Hcmd Hok Hlive. subst T.
  rewrite (AffinityFacts.VerifyToken_success _ _ _ _ _ Hload Htoken).
  eexists. 
  destruct (relay_forward_sends env
              {| allocServers :=
                   <[account := ServerID2NodeID env <$> AllocServers tok]>
                     (allocServers gw) |}
              account cmd data (ServerID2NodeID env <$> AllocServers tok)
              target Hoff Hok) as (evs & Hrun & Hsends).
  - simpl. apply lookup_insert_eq.
  - rewrite lookup_fmap, HT. simpl. exact Hlive.
  - exists evs. by repeat split.
Qed.

(** C7 (as amended). Provided the configured offset is not zero,
    [OnRecvFromClient] returns normally. It drops the message (sends
    nothing and returns [false]) exactly when the decoded node type is at
    most the gateway's type or at least [NodeTypeSize], or the account has
    no entry in the table, or no target node is found. Every drop writes
    exactly one error to the log; a drop for the node type logs the
    wrong-message-number error. *)
Theorem OnRecvFromClient_drop env gw account cmd data :
  offset env ≠ 0 →
  ∃ done evs,
    OnRecvFromClient env gw account cmd data = Some (done, evs)
    ∧ (done = false ∧ sends evs = []
       ↔ (typeOf env cmd ≤ common_Gateway env
          ∨ common_NodeTypeSize env ≤ typeOf env cmd)
         ∨ allocServers gw !! account = None
         ∨ ∃ v, allocServers gw !! account = Some v
                ∧ selectTarget env (v !! typeOf env cmd) (typeOf env cmd) = None)
    ∧ (done = false → ∃ e, evs = [Log e])
    ∧ (typeOf env cmd ≤ common_Gateway env
       ∨ common_NodeTypeSize env ≤ typeOf env cmd →
       done = false ∧ evs = [Log (LogWrongMessageNumber cmd account)]).
Proof.
  intros Hoff.
  destruct (relay_cases env gw account cmd data Hoff)
    as [Hwrong | (Hok & [Habs | (v & Hv & [Hnone | (target & Hsome)])])].
  - rewrite (relay_wrong_type _ _ _ _ _ Hoff Hwrong).
    do 2 eexists. split; [reflexivity |]. repeat split; eauto.
  - rewrite (relay_unknown_account _ _ _ _ _ Hoff Hok Habs).
    do 2 eexists. split; [reflexivity |]. repeat split; eauto. lia.
  - rewrite (relay_no_target _ _ _ _ _ _ Hoff Hok Hv Hnone).
    do 2 eexists. split; [reflexivity |]. repeat split; eauto. lia.
  - rewrite (relay_forward _ _ _ _ _ _ _ Hoff Hok Hv Hsome).
    do 2 eexists. split; [reflexivity |]. split; [| split].
    + split; [intros [? _]; done |].
      intros [Hwrong | [Habs | (v' & Hv' & Hnone)]]; [lia | congruence |].
      assert (v' = v) as -> by congruence. congruence.
    + done.
    + lia.
Qed.

(** The three conjuncts about the sent messages, for a run that sent
    none. *)
Local Ltac nothing_sent :=
  simpl; split; [by left |];
  split; [intros ? ? ? Hin; by apply elem_of_nil in Hin |];
  split; [done | intros Hne; by destruct Hne].

(** C8. Provided the configured offset is not zero, [OnRecvFromClient]
    returns normally. Whenever a target node is resolved for a message in
    range, the message is forwarded: exactly one message is handed to
    [SendMsg], for that target, under [CMD_GW_RELAY_CLIENT_MSG], and it
    carries the account of the call, the wire command modulo the offset,
    and the payload of the call, byte for byte. Nothing else is ever
    sent: every message handed to [SendMsg] has this command, account,
    local command and payload, and the result is [true] exactly when a
    message was sent. *)
Theorem OnRecvFromClient_envelope env gw account cmd data :
  offset env ≠ 0 →
  ∃ done evs,
    OnRecvFromClient env gw account cmd data = Some (done, evs)
    ∧ (∀ v target,
         common_Gateway env < typeOf env cmd < common_NodeTypeSize env →
         allocServers gw !! account = Some v →
         selectTarget env (v !! typeOf env cmd) (typeOf env cmd) = Some target →
         done = true
         ∧ sends evs
           = [(target, uint64 (CMD_GW_RELAY_CLIENT_MSG env),
               {| Account := account;
                  CMD := cmd mod uint32 (MsgCmdOffset env);
                  Data := data |})])
    ∧ (sends evs = []
       ∨ ∃ target,
           sends evs = [(target, relay env, envelope env account cmd data)])
    ∧ (∀ target c msg,
         (target, c, msg) ∈ sends evs →
         c = uint64 (CMD_GW_RELAY_CLIENT_MSG env)
         ∧ Account msg = account
         ∧ CMD msg = cmd mod uint32 (MsgCmdOffset env)
         ∧ Data msg = data)
    ∧ (done = true ↔ sends evs ≠ []).
Proof.
  intros Hoff.
  destruct (relay_cases env gw account cmd data Hoff)
    as [Hwrong | (Hok & [Habs | (v & Hv & [Hnone | (target & Hsome)])])].
  - rewrite (relay_wrong_type _ _ _ _ _ Hoff Hwrong).
    do 2 eexists. split; [reflexivity |].
    split; [intros v target Hok; lia |]. nothing_sent.
  - rewrite (relay_unknown_account _ _ _ _ _ Hoff Hok Habs).
    do 2 eexists. split; [reflexivity |].
    split; [intros v target _ Hv; congruence |]. nothing_sent.
  - rewrite (relay_no_target _ _ _ _ _ _ Hoff Hok Hv Hnone).
    do 2 eexists. split; [reflexivity |].
    split; [intros v' target _ Hv' Hsome; congruence |]. nothing_sent.
  - rewrite (relay_forward _ _ _ _ _ _ _ Hoff Hok Hv Hsome).
    do 2 eexists. split; [reflexivity |].
    assert (sends
              (Send target (relay env) (envelope env account cmd data)
               :: (if SendMsg env target (relay env)
                         (envelope env account cmd data)
                   then []
                   else [Log (LogSendFailed cmd account (typeOf env cmd))]))
            = [(target, relay env, envelope env account cmd data)]) as ->
      by (by destruct (SendMsg env target _ _)).
    split; [| split; [right; by exists target | split]].
    + intros v' target' _ Hv' Hsome'.
      assert (v' = v) as -> by congruence.
      assert (target' = target) as -> by congruence.
      done.
    + intros target' c msg Hin. apply list_elem_of_singleton in Hin.
      injection Hin as -> -> ->. by repeat split.
    + split; done.
Qed.

(** C9. When the table holds a sticky node for the account and the decoded
    node type, and [GetNode] does not return a node for it, the message is
    dropped: [OnRecvFromClient] returns [false], sends nothing and logs one
    error (target not found, once the range check is passed), whatever
    [GetNodeOne] would return for that type. *)
Theorem OnRecvFromClient_sticky_not_live env gw account cmd data v id :
  offset env ≠ 0 →
  allocServers gw !! account = Some v →
  v !! typeOf env cmd = Some id →
  GetNode env id = None →
  ∃ e, OnRecvFromClient env gw account cmd data = Some (false, [Log e])
       ∧ (common_Gateway env < typeOf env cmd < common_NodeTypeSize env →
          e = LogTargetNotFound cmd account (typeOf env cmd)).
Proof.
  intros Hoff Hv Hid Hdead.
  destruct (wrongNodeType env (typeOf env cmd)) eqn:Hw.
  - apply wrongNodeType_true in Hw.
    rewrite (relay_wrong_type _ _ _ _ _ Hoff Hw).
    eexists. split; [reflexivity |]. lia.
  - apply wrongNodeType_false in Hw.
    rewrite (relay_no_target _ _ _ _ _ v Hoff Hw Hv).
    + eexists. split; [reflexivity | done].
    + by rewrite Hid.
Qed.

(** A node type outside the range is dropped also right after a login
    that allocated a live node for it. *)
Lemma relay_after_login_wrong_type env gw account token cmd data :
  offset env ≠ 0 →
  typeOf env cmd ≤ common_Gateway env
  ∨ common_NodeTypeSize env ≤ typeOf env cmd →
  OnRecvFromClient env (VerifyToken env gw account token).1.2 account cmd data
  = Some (false, [Log (LogWrongMessageNumber cmd account)]).
Proof. intros Hoff Hwrong. by apply relay_wrong_type. Qed.

(** With a zero offset the first line divides by zero. *)
Lemma OnRecvFromClient_zero_offset env gw account cmd data :
  offset env = 0 → OnRecvFromClient env gw account cmd data = None.
Proof. intros Hoff. unfold OnRecvFromClient. by rewrite Hoff. Qed.

End Facts.

(** *** The sample deployment *)

Local Ltac by_evaluation :=
  vm_compute; repeat split; solve [reflexivity | discriminate].

Lemma OnRecvFromClient_done_witness :
  OnRecvFromClient Sample.env Sample.stale "alice" 4001 Sample.payload
  = Some (true,
          [Send "match-1"%string 9
                {| Account := "alice"; CMD := 1; Data := Sample.payload |};
           Log (LogSendFailed 4001 "alice" 4)]).
Proof.
  destruct (OnRecvFromClient_done Sample.env Sample.stale "alice" 4001
              Sample.payload) as (done & evs & -> & _ & Hfail);
    [by_evaluation | by_evaluation |].
  destruct (Hfail {[ 3 := (3, 2); 4 := (4, 1) ]} "match-1"%string)
    as [-> ->]; [by_evaluation | by_evaluation | by_evaluation |].
  reflexivity.
Defined.

(** C1 (as stated) fails: node type 3 passes the range check, and the
    message of an account without an entry in the table is dropped with
    the result [false]. *)
Lemma OnRecvFromClient_done_unknown_account :
  common_Gateway Sample.env
  < nodeTypeOf (uint32 (MsgCmdOffset Sample.env)) 3001
  < common_NodeTypeSize Sample.env
  ∧ OnRecvFromClient Sample.env (NewGateway Sample.nodeID) "alice" 3001
      Sample.payload
    = Some (false, [Log (LogLookupFailed (NoServerInformation "alice" 3001))])
  ∧ ¬ ∃ evs, OnRecvFromClient Sample.env (NewGateway Sample.nodeID) "alice"
               3001 Sample.payload
             = Some (true, evs).
Proof.
  split; [by_evaluation |]. split; [by_evaluation |].
  intros [evs Hrun]. vm_compute in Hrun. discriminate.
Qed.

Lemma OnRecvFromClient_affinity_miss_witness :
  (∃ e, OnRecvFromClient Sample.env (NewGateway Sample.nodeID) "alice" 3001
          Sample.payload
        = Some (false, [Log e]))
  ∧ (∃ evs, OnRecvFromClient Sample.env Sample.loggedIn "alice" 4001
              Sample.payload
            = Some (true, evs)
            ∧ sends evs
              = [("match-1"%string, 9,
                  {| Account := "alice"; CMD := 1; Data := Sample.payload |})]).
Proof.
  split.
  - destruct (OnRecvFromClient_affinity_miss Sample.env
                (NewGateway Sample.nodeID) "alice" 3001 Sample.payload)
      as [Hunknown _]; [by_evaluation |].
    destruct Hunknown as (e & Hrun & _); [by_evaluation |].
    by exists e.
  - destruct (OnRecvFromClient_affinity_miss Sample.env Sample.loggedIn
                "alice" 4001 Sample.payload)
      as [_ Hentry]; [by_evaluation |].
    destruct (Hentry {[ 3 := (3, 1) ]}) as [Hone _];
      [by_evaluation | by_evaluation | by_evaluation |].
    apply (Hone "match-1"%string). by_evaluation.
Defined.

Lemma VerifyToken_then_relay_witness :
  ∃ gw' evs,
    VerifyToken Sample.env Sample.stale "alice" "secret" = (0, gw', [])
    ∧ OnRecvFromClient Sample.env gw' "alice" 3001 Sample.payload
      = Some (true, evs)
    ∧ sends evs
      = [("lobby-1"%string, 9,
          {| Account := "alice"; CMD := 1; Data := Sample.payload |})].
Proof.
  apply (VerifyToken_then_relay Sample.env Sample.stale "alice" "secret"
           Sample.aliceToken 3 301 "lobby-1"%string 3001 Sample.payload);
    by_evaluation.
Defined.

(** C3 (as stated) fails: the token of "bob" allocates the live node
    [(1, 1)] for node type 1, the gateway's own type; after the login
    succeeds, a command that decodes to type 1 is dropped by the range
    check and nothing is sent. *)
Lemma VerifyToken_then_relay_gateway_type :
  Token_Load Sample.env "bob" = inr Sample.bobToken
  ∧ Token Sample.bobToken = "hunter2"%string
  ∧ AllocServers Sample.bobToken !! 1 = Some 101
  ∧ GetNode Sample.env (ServerID2NodeID Sample.env 101)
    = Some "gateway-1"%string
  ∧ nodeTypeOf (uint32 (MsgCmdOffset Sample.env)) 1005 = 1
  ∧ (VerifyToken Sample.env (NewGateway Sample.nodeID) "bob" "hunter2").1.1 = 0
  ∧ lookupAlloc
      (VerifyToken Sample.env (NewGateway Sample.nodeID) "bob" "hunter2").1.2
      "bob" 1005 1
    = (Some (1, 1), None)
  ∧ OnRecvFromClient Sample.env
      (VerifyToken Sample.env (NewGateway Sample.nodeID) "bob" "hunter2").1.2
      "bob" 1005 Sample.payload
    = Some (false, [Log (LogWrongMessageNumber 1005 "bob")]).
Proof. by_evaluation. Qed.

Lemma OnRecvFromClient_drop_witness :
  ∃ done evs,
    OnRecvFromClient Sample.env Sample.loggedIn "alice" 1005 Sample.payload
    = Some (done, evs)
    ∧ done = false
    ∧ evs = [Log (LogWrongMessageNumber 1005 "alice")].
Proof.
  destruct (OnRecvFromClient_drop Sample.env Sample.loggedIn "alice" 1005
              Sample.payload) as (done & evs & Hrun & _ & _ & Hwrong);
    [by_evaluation |].
  exists done, evs. split; [exact Hrun |].
  apply Hwrong. left. by_evaluation.
Defined.

(** C7 (as stated) fails: node type 3 is in range, and the message is
    dropped all the same, because the sticky node [(3, 2)] is not live. *)
Lemma OnRecvFromClient_drop_in_range :
  OnRecvFromClient Sample.env Sample.stale "alice" 3001 Sample.payload
  = Some (false, [Log (LogTargetNotFound 3001 "alice" 3)])
  ∧ sends ([Log (LogTargetNotFound 3001 "alice" 3)] : list (event string)) = []
  ∧ ¬ (nodeTypeOf (uint32 (MsgCmdOffset Sample.env)) 3001
       ≤ common_Gateway Sample.env
       ∨ common_NodeTypeSize Sample.env
         ≤ nodeTypeOf (uint32 (MsgCmdOffset Sample.env)) 3001).
Proof.
  split; [by_evaluation |]. split; [reflexivity |].
  vm_compute. intros [Hle | Hle]; by apply Hle.
Qed.

Lemma OnRecvFromClient_envelope_witness :
  ∃ done evs,
    OnRecvFromClient Sample.env Sample.loggedIn "alice" 3001 Sample.payload
    = Some (done, evs)
    ∧ done = true
    ∧ sends evs
      = [("lobby-1"%string, 9,
          {| Account := "alice"; CMD := 1; Data := [x01; x02; xff] |})].
Proof.
  destruct (OnRecvFromClient_envelope Sample.env Sample.loggedIn "alice" 3001
              Sample.payload) as (done & evs & Hrun & Hforward & _);
    [by_evaluation |].
  exists done, evs. split; [exact Hrun |].
  apply (Hforward {[ 3 := (3, 1) ]} "lobby-1"%string); by_evaluation.
Defined.

Lemma OnRecvFromClient_sticky_not_live_witness :
  GetNodeOne Sample.env 3 = Some "lobby-1"%string
  ∧ ∃ e, OnRecvFromClient Sample.env Sample.stale "alice" 3001 Sample.payload
         = Some (false, [Log e]).
Proof.
  split; [reflexivity |].
  destruct (OnRecvFromClient_sticky_not_live Sample.env Sample.stale "alice"
              3001 Sample.payload {[ 3 := (3, 2); 4 := (4, 1) ]} (3, 2))
    as (e & Hrun & _); [by_evaluation | by_evaluation | by_evaluation
                        | by_evaluation |].
  by exists e.
Defined.

End RelayFacts.


(** ** More on the client send facade *)

Module FacadeFacts.
Import Utility.

Section Facts.
Variable Message : Type.
Variable gotcp_Encode : Z → Message → string + (list byte * byte).
Implicit Types (ctx : Context) (account : string) (cmd : Z) (msg : Message).

Local Abbreviation send := (SendMsgToClient Message gotcp_Encode).
Local Abbreviation broadcast := (BroadcastMsgToClient Message gotcp_Encode).

(** The three ways out of [SendMsgToClient]. *)
Lemma send_cases ctx account cmd msg :
  (∃ err, gotcp_Encode cmd msg = inl err
          ∧ send ctx account cmd msg = ((false, Some (EncodeFailed err)), []))
  ∨ (∃ body flag,
       gotcp_Encode cmd msg = inr (body, flag)
       ∧ Node_SendMsgToClient ctx account cmd (body ++ [flag]) = true
       ∧ send ctx account cmd msg
         = ((true, None), [CallSendMsgToClient account cmd (body ++ [flag])]))
  ∨ (∃ body flag,
       gotcp_Encode cmd msg = inr (body, flag)
       ∧ Node_SendMsgToClient ctx account cmd (body ++ [flag]) = false
       ∧ send ctx account cmd msg
         = ((false, Some (SendingFailed account cmd)),
            [CallSendMsgToClient account cmd (body ++ [flag])])).
Proof.
  unfold SendMsgToClient.
  destruct (gotcp_Encode cmd msg) as [err | [body flag]]; [left; eauto |].
  destruct (Node_SendMsgToClient ctx account cmd (body ++ [flag])) eqn:Hsent.
  - right. left. by exists body, flag.
  - right. right. by exists body, flag.
Qed.

(** The three ways out of [BroadcastMsgToClient]. *)
Lemma broadcast_cases ctx cmd msg :
  (∃ err, gotcp_Encode cmd msg = inl err
          ∧ broadcast ctx cmd msg = ((false, Some (EncodeFailed err)), []))
  ∨ (∃ body flag,
       gotcp_Encode cmd msg = inr (body, flag)
       ∧ Node_BroadcastMsgToClient ctx cmd (body ++ [flag]) = true
       ∧ broadcast ctx cmd msg
         = ((true, None), [CallBroadcastMsgToClient cmd (body ++ [flag])]))
  ∨ (∃ body flag,
       gotcp_Encode cmd msg = inr (body, flag)
       ∧ Node_BroadcastMsgToClient ctx cmd (body ++ [flag]) = false
       ∧ broadcast ctx cmd msg
         = ((false, Some (BroadcastFailed cmd)),
            [CallBroadcastMsgToClient cmd (body ++ [flag])])).
Proof.
  unfold BroadcastMsgToClient.
  destruct (gotcp_Encode cmd msg) as [err | [body flag]]; [left; eauto |].
  destruct (Node_BroadcastMsgToClient ctx cmd (body ++ [flag])) eqn:Hsent.
  - right. left. by exists body, flag.
  - right. right. by exists body, flag.
Qed.

(** X1. [SendMsgToClient] returns [true] exactly when it returns no error,
    and exactly when the message was encoded and the node accepted the
    encoded bytes for the account. *)
Theorem SendMsgToClient_ok ctx account cmd msg :
  ((send ctx account cmd msg).1.1 = true
   ↔ (send ctx account cmd msg).1.2 = None)
  ∧ ((send ctx account cmd msg).1.1 = true
     ↔ ∃ body flag,
         gotcp_Encode cmd msg = inr (body, flag)
         ∧ Node_SendMsgToClient ctx account cmd (body ++ [flag]) = true).
Proof.
  destruct (send_cases ctx account cmd msg)
    as [(err & Henc & ->) | [(body & flag & Henc & Hsent & ->)
                            | (body & flag & Henc & Hsent & ->)]]; simpl.
  - split; [done |]. split; [done |].
    intros (body & flag & Henc' & _). congruence.
  - split; [done |]. split; [| done]. intros _. by exists body, flag.
  - split; [done |]. split; [done |].
    intros (body' & flag' & Henc' & Hsent'). congruence.
Qed.

(** X2. [SendMsgToClient] calls the node at most once: never when the
    encoder fails, and otherwise once, for the given account and command,
    with the encoded body followed by the flag byte as its last byte. *)
Theorem SendMsgToClient_calls ctx account cmd msg :
  ((send ctx account cmd msg).2 = []
   ↔ ∃ err, gotcp_Encode cmd msg = inl err)
  ∧ (∀ c, c ∈ (send ctx account cmd msg).2 →
       (send ctx account cmd msg).2 = [c]
       ∧ ∃ body flag,
           gotcp_Encode cmd msg = inr (body, flag)
           ∧ c = CallSendMsgToClient account cmd (body ++ [flag])
           ∧ length (body ++ [flag]) = S (length body)
           ∧ last (body ++ [flag]) = Some flag).
Proof.
  destruct (send_cases ctx account cmd msg)
    as [(err & Henc & ->) | [(body & flag & Henc & Hsent & ->)
                            | (body & flag & Henc & Hsent & ->)]]; simpl.
  - split; [split; eauto |]. intros c Hin. by apply elem_of_nil in Hin.
  - split; [split; [done | intros [err Herr]; congruence] |].
    intros c ->%list_elem_of_singleton. split; [done |].
    exists body, flag. rewrite length_app, last_snoc. simpl.
    repeat split; try done. lia.
  - split; [split; [done | intros [err Herr]; congruence] |].
    intros c ->%list_elem_of_singleton. split; [done |].
    exists body, flag. rewrite length_app, last_snoc. simpl.
    repeat split; try done. lia.
Qed.


(** X4. [BroadcastMsgToClient] returns [true] exactly when it returns no
    error, and exactly when the message was encoded and the node accepted
    the broadcast; it calls the node never when the encoder fails and
    once, with the body followed by the flag byte, otherwise; its own
    error names the command. *)
Theorem BroadcastMsgToClient_ok ctx cmd msg :
  ((broadcast ctx cmd msg).1.1 = true ↔ (broadcast ctx cmd msg).1.2 = None)
  ∧ ((broadcast ctx cmd msg).1.1 = true
     ↔ ∃ body flag,
         gotcp_Encode cmd msg = inr (body, flag)
         ∧ Node_BroadcastMsgToClient ctx cmd (body ++ [flag]) = true)
  ∧ (∀ err, gotcp_Encode cmd msg = inl err →
       broadcast ctx cmd msg = ((false, Some (EncodeFailed err)), []))
  ∧ (∀ body flag, gotcp_Encode cmd msg = inr (body, flag) →
       (broadcast ctx cmd msg).2
       = [CallBroadcastMsgToClient cmd (body ++ [flag])]
       ∧ ((broadcast ctx cmd msg).1.1 = false →
          (broadcast ctx cmd msg).1.2 = Some (BroadcastFailed cmd))).
Proof.
  destruct (broadcast_cases ctx cmd msg)
    as [(err & Henc & ->) | [(body & flag & Henc & Hsent & ->)
                            | (body & flag & Henc & Hsent & ->)]]; simpl.
  - split; [done |]. split; [| split].
    + split; [done |]. intros (body & flag & Henc' & _). congruence.
    + intros err' Henc'. congruence.
    + intros body flag Henc'. congruence.
  - split; [done |]. split; [| split].
    + split; [| done]. intros _. by exists body, flag.
    + intros err' Henc'. congruence.
    + intros body' flag' Henc'.
      assert (body' = body ∧ flag' = flag) as [-> ->]
        by (split; congruence).
      done.
  - split; [done |]. split; [| split].
    + split; [done |].
      intros (body' & flag' & Henc' & Hsent'). congruence.
    + intros err' Henc'. congruence.
    + intros body' flag' Henc'.
      assert (body' = body ∧ flag' = flag) as [-> ->]
        by (split; congruence).
      done.
Qed.

(** X5. For one command and message, [SendMsgToClient] and
    [BroadcastMsgToClient] hand the same bytes to the node: the one calls
    it exactly when the other does, whatever the account and whatever
    the node answers. *)
Theorem send_broadcast_same_bytes ctx ctx' account cmd msg bytes :
  CallSendMsgToClient account cmd bytes ∈ (send ctx account cmd msg).2
  ↔ CallBroadcastMsgToClient cmd bytes ∈ (broadcast ctx' cmd msg).2.
Proof.
  destruct (send_cases ctx account cmd msg)
    as [(err & Henc & ->) | [(body & flag & Henc & Hsent & ->)
                            | (body & flag & Henc & Hsent & ->)]];
    destruct (broadcast_cases ctx' cmd msg)
      as [(err' & Henc' & ->) | [(body' & flag' & Henc' & Hsent' & ->)
                                | (body' & flag' & Henc' & Hsent' & ->)]];
    simpl; try congruence;
    try (split; intros Hin; by apply elem_of_nil in Hin);
    assert (body' = body ∧ flag' = flag) as [-> ->]
      by (split; congruence);
    rewrite !list_elem_of_singleton; split; intros [= ->]; reflexivity.
Qed.

End Facts.


End FacadeFacts.


(** ** More on login and logout *)

Module LoginFacts.
Import Components.

Section Facts.
Context {NodeID INode ServerID : Type}.
Implicit Types (env : Env NodeID INode ServerID) (gw : Gateway NodeID).
Implicit Types (account other token : string) (tok : TokenObj ServerID).

(** The three ways out of [VerifyToken]. *)
Lemma VerifyToken_cases env gw account token :
  (∃ err, Token_Load env account = inl err
          ∧ VerifyToken env gw account token
            = (2, gw, [Log (LogLoadFailed err account)]))
  ∨ (∃ tok, Token_Load env account = inr tok ∧ token ≠ Token tok
            ∧ VerifyToken env gw account token
              = (1, gw,
                 [Log (LogTokenVerificationFailed (Token tok) token account)]))
  ∨ (∃ tok, Token_Load env account = inr tok ∧ token = Token tok
            ∧ VerifyToken env gw account token
              = (0,
                 {| allocServers :=
                      <[account := ServerID2NodeID env <$> AllocServers tok]>
                        (allocServers gw) |},
                 [])).
Proof.
  destruct (Token_Load env account) as [err | tok] eqn:Hload.
  - left. exists err. split; [done |]. unfold VerifyToken. by rewrite Hload.
  - right. destruct (String.eqb_spec token (Token tok)) as [Heq | Hne].
    + right. exists tok. split; [done |]. split; [done |].
      by apply AffinityFacts.VerifyToken_success.
    + left. exists tok. split; [done |]. split; [done |].
      unfold VerifyToken. rewrite Hload.
      destruct (String.eqb_spec token (Token tok)); [done | reflexivity].
Qed.

(** X6. The result code of [VerifyToken] is 0, 1 or 2; it is 0 exactly
    when the token store returned a record whose token equals the
    presented one, and exactly when nothing was logged; with any other
    code the gateway is left as it was. *)
Theorem VerifyToken_code env gw account token :
  ((VerifyToken env gw account token).1.1 = 0
   ∨ (VerifyToken env gw account token).1.1 = 1
   ∨ (VerifyToken env gw account token).1.1 = 2)
  ∧ ((VerifyToken env gw account token).1.1 = 0
     ↔ ∃ tok, Token_Load env account = inr tok ∧ token = Token tok)
  ∧ ((VerifyToken env gw account token).1.1 = 0
     ↔ (VerifyToken env gw account token).2 = [])
  ∧ ((VerifyToken env gw account token).1.1 ≠ 0 →
     (VerifyToken env gw account token).1.2 = gw).
Proof.
  destruct (VerifyToken_cases env gw account token)
    as [(err & Hload & ->) | [(tok & Hload & Hne & ->)
                             | (tok & Hload & Heq & ->)]]; simpl.
  - split; [auto |]. split; [| split; [done | done]].
    split; [done |]. intros (tok & Hload' & _). congruence.
  - split; [auto |]. split; [| split; [done | done]].
    split; [done |]. intros (tok' & Hload' & Heq). congruence.
  - split; [auto |]. split; [| split; [done | done]].
    split; [| done]. intros _. by exists tok.
Qed.

(** X7. Whatever its outcome, [VerifyToken] for one account leaves the
    table entry of every other account as it was. *)
Theorem VerifyToken_other_accounts env gw account token other :
  other ≠ account →
  allocServers (VerifyToken env gw account token).1.2 !! other
  = allocServers gw !! other.
Proof.
  intros Hother.
  destruct (VerifyToken_cases env gw account token)
    as [(err & Hload & ->) | [(tok & Hload & Hne & ->)
                             | (tok & Hload & Heq & ->)]]; simpl; try done.
  by rewrite lookup_insert_ne.
Qed.

(** X8. Verifying the same token twice in a row returns what verifying it
    once returns: the same code, the same table, the same log entries. *)
Theorem VerifyToken_twice env gw account token :
  VerifyToken env (VerifyToken env gw account token).1.2 account token
  = VerifyToken env gw account token.
Proof.
  destruct (VerifyToken_cases env gw account token)
    as [(err & Hload & Hrun) | [(tok & Hload & Hne & Hrun)
                               | (tok & Hload & Heq & Hrun)]].
  - rewrite Hrun. simpl. exact Hrun.
  - rewrite Hrun. simpl. exact Hrun.
  - rewrite Hrun. simpl.
    rewrite (AffinityFacts.VerifyToken_success _ _ _ _ _ Hload Heq). simpl.
    by rewrite insert_insert_eq.
Qed.

(** X9. A logout right after a login attempt, successful or not, leaves
    the table that a logout alone would have left; for an account that
    had no entry before, that is the table from before the login. *)
Theorem login_then_logout env gw account token :
  OnLogout (VerifyToken env gw account token).1.2 account
  = OnLogout gw account
  ∧ (allocServers gw !! account = None →
     OnLogout (VerifyToken env gw account token).1.2 account = gw).
Proof.
  assert (OnLogout (VerifyToken env gw account token).1.2 account
          = OnLogout gw account) as Hout.
  { destruct (VerifyToken_cases env gw account token)
      as [(err & Hload & ->) | [(tok & Hload & Hne & ->)
                               | (tok & Hload & Heq & ->)]]; simpl; try done.
    unfold OnLogout. simpl. by rewrite delete_insert_eq. }
  split; [exact Hout |].
  intros Habs. rewrite Hout. by apply AffinityFacts.OnLogout_absent.
Qed.

(** X10. [OnLogout] removes the entry of its account and no other: every
    other account keeps its entry, and logouts of two accounts give the
    same table in either order. *)
Theorem OnLogout_other_accounts gw account other :
  allocServers (OnLogout gw account) !! account = None
  ∧ (other ≠ account →
     allocServers (OnLogout gw account) !! other = allocServers gw !! other)
  ∧ OnLogout (OnLogout gw account) other
    = OnLogout (OnLogout gw other) account.
Proof.
  unfold OnLogout. simpl. split; [| split].
  - apply lookup_delete_eq.
  - intros Hother. by rewrite lookup_delete_ne.
  - f_equal. apply delete_delete.
Qed.

End Facts.

Lemma VerifyToken_other_accounts_witness :
  allocServers
    (VerifyToken Components.Sample.env Components.Sample.loggedIn "bob"
       "hunter2").1.2 !! "alice"
  = allocServers Components.Sample.loggedIn !! "alice".
Proof.
  apply (VerifyToken_other_accounts Components.Sample.env
           Components.Sample.loggedIn "bob" "hunter2" "alice").
  discriminate.
Defined.

End LoginFacts.


(** ** More on the relay dispatcher *)

Module DispatchFacts.
Import Components.

Section Facts.
Context {NodeID INode ServerID : Type}.
Implicit Types (env : Env NodeID INode ServerID) (gw : Gateway NodeID).
Implicit Types (account other token : string) (cmd : Z) (data : list byte).
Implicit Types (v : gmap Z NodeID) (target : INode).

Local Abbreviation offset env := (uint32 (MsgCmdOffset env)).
Local Abbreviation typeOf env cmd := (nodeTypeOf (uint32 (MsgCmdOffset env)) cmd).
Local Abbreviation relay env := (uint64 (CMD_GW_RELAY_CLIENT_MSG env)).
Local Abbreviation envelope env account cmd data :=
  {| Account := account;
     CMD := localCmdOf (uint32 (MsgCmdOffset env)) cmd;
     Data := data |}.

(** The dispatcher reads the table at the account of the message only. *)
Lemma relay_same_entry env gw gw' account cmd data :
  allocServers gw !! account = allocServers gw' !! account →
  OnRecvFromClient env gw account cmd data
  = OnRecvFromClient env gw' account cmd data.
Proof.
  intros Hsame. unfold OnRecvFromClient, lookupAlloc. by rewrite Hsame.
Qed.

Lemma offset_positive env : offset env ≠ 0 → 0 < offset env < 2 ^ 32.
Proof. intros Hoff. pose proof (uint32_range (MsgCmdOffset env)) as []. lia. Qed.

(** The range check, read on the wire command. *)
Lemma wrong_type_command env cmd :
  offset env ≠ 0 →
  (typeOf env cmd ≤ common_Gateway env
   ∨ common_NodeTypeSize env ≤ typeOf env cmd)
  ↔ (cmd < (common_Gateway env + 1) * offset env
     ∨ common_NodeTypeSize env * offset env ≤ cmd).
Proof.
  intros [Hpos _]%offset_positive. unfold nodeTypeOf.
  pose proof (Z.div_mod cmd (offset env)) as Hdm.
  pose proof (Z.mod_pos_bound cmd (offset env) Hpos) as Hmod.
  split; (intros [H | H]; [left | right]); nia.
Qed.

(** X11. After [OnLogout] a message of that account is dropped: nothing
    is sent and the result is [false], whatever the table held before and
    whatever nodes the registry offers; once the range check is passed the
    logged error is that no server information exists for the account. *)
Theorem logout_then_relay env gw account cmd data :
  offset env ≠ 0 →
  ∃ e, OnRecvFromClient env (OnLogout gw account) account cmd data
       = Some (false, [Log e])
       ∧ (common_Gateway env < typeOf env cmd < common_NodeTypeSize env →
          e = LogLookupFailed (NoServerInformation account cmd)).
Proof.
  intros Hoff.
  destruct (wrongNodeType env (typeOf env cmd)) eqn:Hw.
  - apply RelayFacts.wrongNodeType_true in Hw.
    rewrite (RelayFacts.relay_wrong_type _ _ _ _ _ Hoff Hw).
    eexists. split; [reflexivity |]. lia.
  - apply RelayFacts.wrongNodeType_false in Hw.
    rewrite (RelayFacts.relay_unknown_account _ _ _ _ _ Hoff Hw).
    + eexists. split; [reflexivity | done].
    + unfold OnLogout. simpl. apply lookup_delete_eq.
Qed.

(** X12. What the dispatcher does with a message of one account does not
    change when another account logs in or out. *)
Theorem relay_other_account env gw account other token cmd data :
  other ≠ account →
  OnRecvFromClient env (VerifyToken env gw other token).1.2 account cmd data
  = OnRecvFromClient env gw account cmd data
  ∧ OnRecvFromClient env (OnLogout gw other) account cmd data
    = OnRecvFromClient env gw account cmd data.
Proof.
  intros Hother. split; apply relay_same_entry.
  - destruct (LoginFacts.VerifyToken_cases env gw other token)
      as [(err & Hload & ->) | [(tok & Hload & Hne & ->)
                               | (tok & Hload & Heq & ->)]]; simpl; try done.
    by rewrite lookup_insert_ne.
  - unfold OnLogout. simpl. by rewrite lookup_delete_ne.
Qed.

(** X13. A message is rejected with the wrong-message-number error exactly
    when its wire command lies below [(Gateway + 1) * offset] or at or
    above [NodeTypeSize * offset]: the commands of the gateway's own type
    and of the types below it are never relayed. *)
Theorem relay_command_range env gw account cmd data :
  offset env ≠ 0 →
  OnRecvFromClient env gw account cmd data
  = Some (false, [Log (LogWrongMessageNumber cmd account)])
  ↔ (cmd < (common_Gateway env + 1) * offset env
     ∨ common_NodeTypeSize env * offset env ≤ cmd).
Proof.
  intros Hoff. rewrite <- (wrong_type_command env cmd Hoff).
  destruct (RelayFacts.relay_cases env gw account cmd data Hoff)
    as [Hwrong | (Hok & [Habs | (v & Hv & [Hnone | (target & Hsome)])])].
  - by rewrite (RelayFacts.relay_wrong_type _ _ _ _ _ Hoff Hwrong).
  - rewrite (RelayFacts.relay_unknown_account _ _ _ _ _ Hoff Hok Habs).
    split; [discriminate | lia].
  - rewrite (RelayFacts.relay_no_target _ _ _ _ _ _ Hoff Hok Hv Hnone).
    split; [discriminate | lia].
  - rewrite (RelayFacts.relay_forward _ _ _ _ _ _ _ Hoff Hok Hv Hsome).
    split; [discriminate | lia].
Qed.

(** X14. The command of every relayed envelope is a local command: it is
    at least 0 and below the offset, and together with the node type that
    passed the range check it gives back the wire command,
    [nodeType * offset + CMD = cmd]. *)
Theorem relay_local_command env gw account cmd data done evs target c msg :
  offset env ≠ 0 →
  OnRecvFromClient env gw account cmd data = Some (done, evs) →
  (target, c, msg) ∈ sends evs →
  0 ≤ CMD msg < offset env
  ∧ typeOf env cmd * offset env + CMD msg = cmd
  ∧ common_Gateway env < typeOf env cmd < common_NodeTypeSize env.
Proof.
  intros Hoff Hrun Hin.
  destruct (offset_positive env Hoff) as [Hpos _].
  destruct (RelayFacts.relay_cases env gw account cmd data Hoff)
    as [Hwrong | (Hok & [Habs | (v & Hv & [Hnone | (t & Hsome)])])].
  - rewrite (RelayFacts.relay_wrong_type _ _ _ _ _ Hoff Hwrong) in Hrun.
    injection Hrun as <- <-. by apply elem_of_nil in Hin.
  - rewrite (RelayFacts.relay_unknown_account _ _ _ _ _ Hoff Hok Habs) in Hrun.
    injection Hrun as <- <-. by apply elem_of_nil in Hin.
  - rewrite (RelayFacts.relay_no_target _ _ _ _ _ _ Hoff Hok Hv Hnone) in Hrun.
    injection Hrun as <- <-. by apply elem_of_nil in Hin.
  - destruct (RelayFacts.relay_forward_sends _ _ _ _ data _ _ Hoff Hok Hv Hsome)
      as (evs' & Hrun' & Hsends).
    assert (evs' = evs) as -> by congruence.
    rewrite Hsends in Hin. apply list_elem_of_singleton in Hin.
    injection Hin as -> -> ->. simpl. unfold localCmdOf, nodeTypeOf.
    pose proof (Z.div_mod cmd (offset env)) as Hdm.
    pose proof (Z.mod_pos_bound cmd (offset env) Hpos) as Hmod.
    split; [done |]. split; [lia | done].
Qed.

(** X16. A sticky node that the registry reports live takes the message,
    and it alone: the message is sent once, to the node [GetNode] returns
    for the identifier in the table, whatever [GetNodeOne] would return
    for the node type. *)
Theorem relay_sticky_live env gw account cmd data v id target :
  offset env ≠ 0 →
  common_Gateway env < typeOf env cmd < common_NodeTypeSize env →
  allocServers gw !! account = Some v →
  v !! typeOf env cmd = Some id →
  GetNode env id = Some target →
  ∃ evs, OnRecvFromClient env gw account cmd data = Some (true, evs)
         ∧ sends evs = [(target, relay env, envelope env account cmd data)].
Proof.
  intros Hoff Hok Hv Hid Hlive.
  apply (RelayFacts.relay_forward_sends _ _ _ _ _ v); try done.
  by rewrite Hid.
Qed.

(** X17. A run that sends a message logs the send failure exactly when
    [SendMsg] returned [false], and logs nothing otherwise; a run that
    sends nothing logs exactly one error. *)
Theorem relay_log env gw account cmd data done evs :
  offset env ≠ 0 →
  OnRecvFromClient env gw account cmd data = Some (done, evs) →
  (sends evs = [] → ∃ e, logged evs = [e] ∧ done = false)
  ∧ (∀ target c msg,
       (target, c, msg) ∈ sends evs →
       done = true
       ∧ logged evs
         = if SendMsg env target c msg then []
           else [LogSendFailed cmd account (typeOf env cmd)]).
Proof.
  intros Hoff Hrun.
  destruct (RelayFacts.relay_cases env gw account cmd data Hoff)
    as [Hwrong | (Hok & [Habs | (v & Hv & [Hnone | (t & Hsome)])])].
  - rewrite (RelayFacts.relay_wrong_type _ _ _ _ _ Hoff Hwrong) in Hrun.
    injection Hrun as <- <-. simpl. split; [eauto |].
    intros ? ? ? Hin. by apply elem_of_nil in Hin.
  - rewrite (RelayFacts.relay_unknown_account _ _ _ _ _ Hoff Hok Habs) in Hrun.
    injection Hrun as <- <-. simpl. split; [eauto |].
    intros ? ? ? Hin. by apply elem_of_nil in Hin.
  - rewrite (RelayFacts.relay_no_target _ _ _ _ _ _ Hoff Hok Hv Hnone) in Hrun.
    injection Hrun as <- <-. simpl. split; [eauto |].
    intros ? ? ? Hin. by apply elem_of_nil in Hin.
  - rewrite (RelayFacts.relay_forward _ _ _ _ _ _ _ Hoff Hok Hv Hsome) in Hrun.
    injection Hrun as <- <-.
    destruct (SendMsg env t (relay env) (envelope env account cmd data))
      eqn:Hsent; simpl.
    + split; [done |]. intros target c msg Hin.
      apply list_elem_of_singleton in Hin. injection Hin as -> -> ->.
      by rewrite Hsent.
    + split; [done |]. intros target c msg Hin.
      apply list_elem_of_singleton in Hin. injection Hin as -> -> ->.
      by rewrite Hsent.
Qed.

(** X22. A gateway as [NewGateway] makes it knows no account: every
    lookup fails, every message is dropped with one logged error and
    nothing sent, whatever nodes the registry offers, and a logout leaves
    it as it is. *)
Theorem fresh_gateway_drops env account cmd data :
  offset env ≠ 0 →
  lookupAlloc (NewGateway NodeID) account cmd (typeOf env cmd)
  = (None, Some (NoServerInformation account cmd))
  ∧ OnLogout (NewGateway NodeID) account = NewGateway NodeID
  ∧ ∃ e, OnRecvFromClient env (NewGateway NodeID) account cmd data
         = Some (false, [Log e])
         ∧ (common_Gateway env < typeOf env cmd < common_NodeTypeSize env →
            e = LogLookupFailed (NoServerInformation account cmd)).
Proof.
  intros Hoff.
  assert (allocServers (NewGateway NodeID) !! account = None) as Habs
    by apply lookup_empty.
  split; [by apply RelayFacts.lookupAlloc_unknown |].
  split; [by apply AffinityFacts.OnLogout_absent |].
  destruct (wrongNodeType env (typeOf env cmd)) eqn:Hw.
  - apply RelayFacts.wrongNodeType_true in Hw.
    rewrite (RelayFacts.relay_wrong_type _ _ _ _ _ Hoff Hw).
    eexists. split; [reflexivity |]. lia.
  - apply RelayFacts.wrongNodeType_false in Hw.
    rewrite (RelayFacts.relay_unknown_account _ _ _ _ _ Hoff Hw Habs).
    eexists. split; [reflexivity | done].
Qed.

End Facts.

Local Ltac by_evaluation :=
  vm_compute; repeat split; solve [reflexivity | discriminate].

Lemma logout_then_relay_witness :
  ∃ e, OnRecvFromClient Sample.env (OnLogout Sample.loggedIn "alice") "alice"
         3001 Sample.payload
       = Some (false, [Log e]).
Proof.
  destruct (logout_then_relay Sample.env Sample.loggedIn "alice" 3001
              Sample.payload) as (e & Hrun & _); [by_evaluation |].
  by exists e.
Defined.

Lemma relay_other_account_witness :
  OnRecvFromClient Sample.env (OnLogout Sample.loggedIn "bob") "alice" 3001
    Sample.payload
  = OnRecvFromClient Sample.env Sample.loggedIn "alice" 3001 Sample.payload.
Proof.
  apply (relay_other_account Sample.env Sample.loggedIn "alice" "bob"
           "hunter2" 3001 Sample.payload).
  discriminate.
Defined.

Lemma relay_command_range_witness :
  OnRecvFromClient Sample.env Sample.loggedIn "alice" 1999 Sample.payload
  = Some (false, [Log (LogWrongMessageNumber 1999 "alice")]).
Proof.
  apply (relay_command_range Sample.env Sample.loggedIn "alice" 1999
           Sample.payload); [by_evaluation |].
  left. by_evaluation.
Defined.

Lemma relay_local_command_witness :
  nodeTypeOf (uint32 (MsgCmdOffset Sample.env)) 3999
  * uint32 (MsgCmdOffset Sample.env) + 999 = 3999.
Proof.
  apply (relay_local_command Sample.env Sample.loggedIn "alice" 3999
           Sample.payload true
           [Send "lobby-1"%string 9
              {| Account := "alice"; CMD := 999; Data := Sample.payload |}]
           "lobby-1"%string 9
           {| Account := "alice"; CMD := 999; Data := Sample.payload |}).
  - by_evaluation.
  - by_evaluation.
  - simpl. apply list_elem_of_singleton. reflexivity.
Defined.

Lemma relay_sticky_live_witness :
  ∃ evs, OnRecvFromClient Sample.env Sample.stale "alice" 4001 Sample.payload
         = Some (true, evs)
         ∧ sends evs
           = [("match-1"%string, 9,
               {| Account := "alice"; CMD := 1; Data := Sample.payload |})].
Proof.
  apply (relay_sticky_live Sample.env Sample.stale "alice" 4001 Sample.payload
           {[ 3 := (3, 2); 4 := (4, 1) ]} (4, 1) "match-1"%string);
    by_evaluation.
Defined.

Lemma relay_log_witness :
  logged [Send "match-1"%string 9
            {| Account := "alice"; CMD := 1; Data := Sample.payload |};
          (Log (LogSendFailed 4001 "alice" 4) : event string)]
  = [LogSendFailed 4001 "alice" 4].
Proof.
  destruct (relay_log Sample.env Sample.stale "alice" 4001 Sample.payload true
              [Send "match-1"%string 9
                 {| Account := "alice"; CMD := 1; Data := Sample.payload |};
               Log (LogSendFailed 4001 "alice" 4)]) as [_ Hsent];
    [by_evaluation | by_evaluation |].
  destruct (Hsent "match-1"%string 9
              {| Account := "alice"; CMD := 1; Data := Sample.payload |})
    as [_ Hlog].
  - simpl. apply list_elem_of_singleton. reflexivity.
  - exact Hlog.
Defined.

Lemma fresh_gateway_drops_witness :
  ∃ e, OnRecvFromClient Sample.env (NewGateway Sample.nodeID) "bob" 4002
         Sample.payload
       = Some (false, [Log e]).
Proof.
  destruct (fresh_gateway_drops Sample.env "bob" 4002 Sample.payload)
    as (_ & _ & e & Hrun & _); [by_evaluation |].
  by exists e.
Defined.

End DispatchFacts.


(** ** Start, stop and the registered functions *)

Module LifecycleFacts.
Import Lifecycle.

Local Abbreviation createDB boot :=
  (go_redis_orm_CreateDB boot (Name (Config_DbToken boot))
     (Addrs (Config_DbToken boot)) (Password (Config_DbToken boot))
     (DBIndex (Config_DbToken boot))).

Local Abbreviation createDBCall boot :=
  (CreateDB (Name (Config_DbToken boot)) (Addrs (Config_DbToken boot))
     (Password (Config_DbToken boot)) (DBIndex (Config_DbToken boot))).

(** The five ways out of [Start]. *)
Lemma Start_cases boot :
  (pluginType boot ≠ boot_Gateway boot ∧ Start boot = (true, []))
  ∨ (pluginType boot = boot_Gateway boot
     ∧ ((∃ err, createDB boot = Some err
                ∧ Start boot = (false, [createDBCall boot; LogError err]))
        ∨ (createDB boot = None
           ∧ ((Node_Init boot = false
               ∧ Start boot = (false, [createDBCall boot; NodeInit]))
              ∨ (Node_Init boot = true ∧ Node_Start boot = false
                 ∧ Start boot
                   = (false, [createDBCall boot; NodeInit; NodeStart]))
              ∨ (Node_Init boot = true ∧ Node_Start boot = true
                 ∧ Start boot
                   = (true, [createDBCall boot; NodeInit; NodeStart])))))).
Proof.
  unfold Start, initRedis.
  destruct (Z.eqb_spec (pluginType boot) (boot_Gateway boot)) as [Heq | Hne];
    [right; split; [done |] | by left].
  destruct (createDB boot) as [err |]; [left; by exists err |].
  right. split; [done |].
  destruct (Node_Init boot); [| by left].
  destruct (Node_Start boot); simpl; auto.
Qed.

(** X18. When the plugin is not a gateway, [Start] returns [true] and
    calls nothing, not even a database set-up that would fail. When it is
    a gateway, [Start] returns [true] exactly when the token database was
    created and both [Node.Init] and [Node.Start] returned [true]. *)
Theorem Start_result boot :
  (pluginType boot ≠ boot_Gateway boot → Start boot = (true, []))
  ∧ (pluginType boot = boot_Gateway boot →
     ((Start boot).1 = true
      ↔ createDB boot = None
        ∧ Node_Init boot = true ∧ Node_Start boot = true)).
Proof.
  destruct (Start_cases boot)
    as [[Hne ->] | [Heq [(err & Hdb & ->) | [Hdb [[Hinit ->]
         | [(Hinit & Hstart & ->) | (Hinit & Hstart & ->)]]]]]]; simpl.
  - split; [done |]. intros Heq. congruence.
  - split; [intros Hne; congruence |]. intros _.
    split; [done |]. intros (Hdb' & _). congruence.
  - split; [intros Hne; congruence |]. intros _.
    split; [done |]. intros (_ & Hinit' & _). congruence.
  - split; [intros Hne; congruence |]. intros _.
    split; [done |]. intros (_ & _ & Hstart'). congruence.
  - split; [intros Hne; congruence |]. intros _. done.
Qed.

Local Ltac member_cases :=
  repeat match goal with
  | H : _ ∈ [] |- _ => by apply elem_of_nil in H
  | H : _ ∈ _ :: _ |- _ => apply elem_of_cons in H as [H | H]
  end.

(** X19. [Start] stops at the first step that fails: [Node.Init] is
    called only after the token database was created, [Node.Start] only
    after [Node.Init] returned [true]; an error is logged only for the
    database, and then [Start] returns [false] without calling the node;
    the database is set up at most once, with the four configured
    values, and [Start] never closes the node. *)
Theorem Start_steps boot :
  (NodeInit ∈ (Start boot).2 → createDB boot = None)
  ∧ (NodeStart ∈ (Start boot).2 →
     Node_Init boot = true ∧ NodeInit ∈ (Start boot).2)
  ∧ (∀ err, LogError err ∈ (Start boot).2 →
       createDB boot = Some err ∧ (Start boot).1 = false
       ∧ (Start boot).2 = [createDBCall boot; LogError err])
  ∧ (∀ name addrs password dbIndex,
       CreateDB name addrs password dbIndex ∈ (Start boot).2 →
       CreateDB name addrs password dbIndex = createDBCall boot
       ∧ pluginType boot = boot_Gateway boot)
  ∧ ((Start boot).2 = [] ∨ head (Start boot).2 = Some (createDBCall boot))
  ∧ (NodeClose ∈ (Start boot).2 → False).
Proof.
  destruct (Start_cases boot)
    as [[Hne ->] | [Heq [(err & Hdb & ->) | [Hdb [[Hinit ->]
         | [(Hinit & Hstart & ->) | (Hinit & Hstart & ->)]]]]]]; simpl;
    (split; [| split; [| split; [| split; [| split]]]]);
    intros; member_cases; simplify_eq;
    repeat split; auto; set_solver.
Qed.

(** X20. [Close] leaves the node pointer nil and calls [Node.Close]
    exactly when the pointer was not nil; a second [Close] calls nothing
    and changes nothing. *)
Theorem Close_twice hasNode :
  (Close hasNode).1 = false
  ∧ ((Close hasNode).2 = [NodeClose] ↔ hasNode = true)
  ∧ ((Close hasNode).2 = [] ↔ hasNode = false)
  ∧ Close (Close hasNode).1 = (false, []).
Proof. by destruct hasNode. Qed.

(** X21. [GetSendToClient] returns the function registered last, nil
    when none was; registering an encode or a decode function does not
    change it, and the three registrations can be made in any order. *)
Theorem registered_functions {FS FE FD : Type} (gw : Hooks FS FE FD)
    (f g : option FS) (e : option FE) (d : option FD) :
  GetSendToClient (RegisterSendToClient f gw) = f
  ∧ GetSendToClient (RegisterSendToClient f (RegisterSendToClient g gw)) = f
  ∧ GetSendToClient (noHooks : Hooks FS FE FD) = None
  ∧ GetSendToClient (RegisterEncodeFunc e gw) = GetSendToClient gw
  ∧ GetSendToClient (RegisterDecodeFunc d gw) = GetSendToClient gw
  ∧ RegisterSendToClient f (RegisterEncodeFunc e (RegisterDecodeFunc d gw))
    = RegisterDecodeFunc d (RegisterEncodeFunc e (RegisterSendToClient f gw))
  ∧ funcEncodeFunc (RegisterEncodeFunc e (RegisterSendToClient f gw)) = e
  ∧ funcDecodeFunc (RegisterDecodeFunc d (RegisterSendToClient f gw)) = d.
Proof. by destruct gw. Qed.

Example Start_samples :
  Start Sample.gateway
  = (true, [CreateDB "token" ["127.0.0.1:6379"%string] "" 0; NodeInit; NodeStart])
  ∧ Start Sample.lobby = (true, [])
  ∧ Start Sample.initFails
    = (false, [CreateDB "token" ["127.0.0.1:6379"%string] "" 0; NodeInit]).
Proof. by vm_compute. Qed.

End LifecycleFacts.
